(** * Model-conversion scripts: [convert_blazeface.py] and [convert_minifasnet.py]

    A shallow embedding of the two command-line scripts of the repository.

    - [Py] is the fragment of the Python run time the scripts rely on:
      exceptions, [try]/[except], [sys.exit] and the exit status of the
      interpreter, written as a small exception monad that also records a
      chronological log of observable events.
    - [Torch] is the shape-level reading of the [torch.nn] layers used by
      [MiniFASNetV2]: a tensor is abstracted to its [torch.Size]; a layer
      either maps a size to a size or raises the exception PyTorch raises
      for an ill-shaped operand.  Weight values play no part.
    - [Os] collects the calls that leave the process ([print],
      [os.path.exists], [subprocess.run], [torch.onnx.export]); what the
      outside world answers, faults and the output of the global
      random-number generator included, is read from an [Env] record.
    - [convert_minifasnet] and [convert_blazeface] follow the two source
      files statement by statement. *)

From Stdlib Require Import ZArith Lia.
From stdpp Require Import base numbers strings list gmap.

Local Open Scope Z_scope.

(* ===================================================================== *)
(** ** Python run-time fragment                                           *)
(* ===================================================================== *)

Module Py.

(** The exception classes that occur in the two scripts.  [SystemExit]
    and [KeyboardInterrupt] derive from [BaseException] only; the others
    are subclasses of [Exception]. *)
Inductive exn : Type :=
| KeyboardInterrupt
| SystemExit (code : Z)
| CalledProcessError (returncode : Z) (cmd : list string)
| OSError (msg : string)
| RuntimeError (msg : string)
| ValueError (msg : string)
| IndexError (msg : string).

(** [isinstance(e, Exception)], the test made by [except Exception]. *)
Definition isinstance_Exception (e : exn) : bool :=
  match e with
  | KeyboardInterrupt | SystemExit _ => false
  | CalledProcessError _ _ | OSError _ | RuntimeError _
  | ValueError _ | IndexError _ => true
  end.

(** [isinstance(e, subprocess.CalledProcessError)]. *)
Definition isinstance_CalledProcessError (e : exn) : bool :=
  match e with
  | CalledProcessError _ _ => true
  | _ => false
  end.

Inductive result (A : Type) : Type :=
| Return (a : A)
| Raise (e : exn).
Arguments Return {A} a.
Arguments Raise {A} e.

(** A computation extends the event log (oldest event first) and either
    returns a value or raises. *)
Definition M (E A : Type) : Type := list E -> list E * result A.

Definition ret {E A} (a : A) : M E A := fun log => (log, Return a).

Definition raise {E A} (e : exn) : M E A := fun log => (log, Raise e).

Definition bind {E A B} (c : M E A) (k : A -> M E B) : M E B :=
  fun log =>
    match c log with
    | (log', Return a) => k a log'
    | (log', Raise e) => (log', Raise e)
    end.

Definition emit {E} (ev : E) : M E unit := fun log => (log ++ [ev], Return tt).

(** [try: body / except ...: handler].  [handler e] is [None] when no
    [except] clause matches [e], which then keeps propagating. *)
Definition try_except {E A} (body : M E A) (handler : exn -> option (M E A))
  : M E A :=
  fun log =>
    match body log with
    | (log', Return a) => (log', Return a)
    | (log', Raise e) =>
        match handler e with
        | Some h => h log'
        | None => (log', Raise e)
        end
    end.

(** Run a computation from an empty log. *)
Definition run {E A} (c : M E A) : list E * result A := c [].

(** [s * n] on strings. *)
Definition str_mul (s : string) (n : Z) : string :=
  Nat.iter (Z.to_nat n) (String.append s) EmptyString.

(** The newline character written [\n] in the source. *)
Definition NL : string := String (Ascii.ascii_of_nat 10) EmptyString.

(** [sys.exit(code)] raises [SystemExit]. *)
Definition sys_exit {E A} (code : Z) : M E A := raise (SystemExit code).

(** Exit status of the interpreter once the top-level code has finished:
    0 after a normal end, the carried code after an uncaught
    [SystemExit], 1 after any other uncaught exception (130 stands for
    the death by SIGINT that follows an uncaught [KeyboardInterrupt]). *)
Definition exit_status {A} (r : result A) : Z :=
  match r with
  | Return _ => 0
  | Raise (SystemExit code) => code
  | Raise KeyboardInterrupt => 130
  | Raise _ => 1
  end.

End Py.

Declare Scope py_scope.
Delimit Scope py_scope with py.
Notation "x <- c ;; k" := (Py.bind c (fun x => k))
  (at level 20, c at level 99, k at level 200, only parsing) : py_scope.
Notation "c ;; k" := (Py.bind c (fun _ => k))
  (at level 100, k at level 200, only parsing, right associativity) : py_scope.
Local Open Scope py_scope.

(* ===================================================================== *)
(** ** Shape-level semantics of the [torch.nn] layers                     *)
(* ===================================================================== *)

Module Torch.
Import Py.

(** A tensor is represented by its [torch.Size]. *)
Definition shape : Type := list Z.

Definition numel (x : shape) : Z := fold_right Z.mul 1 x.

Inductive Module : Type :=
| Conv2d (in_channels out_channels : Z) (kernel_size : Z * Z)
         (stride padding groups : Z) (bias : bool)
| BatchNorm2d (num_features : Z)
| Linear (in_features out_features : Z)
| ReLU (inplace : bool).

(** The helper that turns [kernel_size=3] into [(3, 3)]. *)
Definition _pair (k : Z) : Z * Z := (k, k).

(** Output extent of a convolution along one axis (dilation 1);
    [/] on [Z] is the floor division of the PyTorch formula. *)
Definition conv_out (i k s p : Z) : Z := (i + 2 * p - (k - 1) - 1) / s + 1.

Definition conv2d_hw (cin cout : Z) (k : Z * Z) (s p : Z)
           (batch : list Z) (c h w : Z) : result shape :=
  if negb (c =? cin) then
    Raise (RuntimeError "conv2d: input channels do not match weight")
  else if (h + 2 * p <? fst k) || (w + 2 * p <? snd k) then
    Raise (RuntimeError "Kernel size can't be greater than actual input size")
  else
    Return (batch ++ [cout; conv_out h (fst k) s p; conv_out w (snd k) s p]).

(** [module(x)] in inference ([training = false]) or training mode, for
    a module with positive channel counts and kernel extents, the only
    ones the scripts construct. *)
Definition apply (training : bool) (m : Module) (x : shape) : result shape :=
  match m with
  | Conv2d cin cout k s p _ _ =>
      match x with
      | [n; c; h; w] => conv2d_hw cin cout k s p [n] c h w
      | [c; h; w] => conv2d_hw cin cout k s p [] c h w
      | _ => Raise (RuntimeError
               "Expected 3D (unbatched) or 4D (batched) input to conv2d")
      end
  | BatchNorm2d nf =>
      match x with
      | [n; c; h; w] =>
          if training && (n * (h * w) =? 1) then
            Raise (ValueError
              "Expected more than 1 value per channel when training")
          else if negb (c =? nf) then
            Raise (RuntimeError
              "running_mean should contain as many elements as channels")
          else Return x
      | _ => Raise (ValueError "expected 4D input")
      end
  | Linear fin fout =>
      match reverse x with
      | [] => Raise (RuntimeError "linear: input must have at least 1 dim")
      | last :: front =>
          if last =? fin then Return (reverse front ++ [fout])
          else Raise (RuntimeError
                 "mat1 and mat2 shapes cannot be multiplied")
      end
  | ReLU _ => Return x
  end.

(** [x.size(d)]. *)
Definition size (x : shape) (d : Z) : result Z :=
  let len := Z.of_nat (length x) in
  let i := if d <? 0 then d + len else d in
  if (0 <=? i) && (i <? len) then
    match x !! Z.to_nat i with
    | Some n => Return n
    | None => Raise (IndexError "Dimension out of range")
    end
  else Raise (IndexError "Dimension out of range").

(** [x.view(d0, d1, ...)], where one of the requested extents may be [-1]. *)
Definition view (x : shape) (target : list Z) : result shape :=
  let known := numel (filter (fun d => d ≠ -1) target) in
  match length (filter (fun d => d = -1) target) with
  | O =>
      if known =? numel x then Return target
      else Raise (RuntimeError "shape is invalid for input size")
  | S O =>
      if known =? 0 then
        Raise (RuntimeError "cannot reshape: unspecified dimension -1")
      else if numel x mod known =? 0 then
        Return ((fun d => if d =? -1 then numel x / known else d) <$> target)
      else Raise (RuntimeError "shape is invalid for input size")
  | _ => Raise (RuntimeError "only one dimension can be inferred")
  end.

(** How many values the constructor of a module draws from the global
    random-number generator: the weight of a convolution (and its bias,
    when it has one), the weight and the bias of a linear layer.  Batch
    normalisation starts from fixed ones and zeros and draws nothing. *)
Definition random_numel (m : Module) : Z :=
  match m with
  | Conv2d cin cout k _ _ g bias =>
      cout * (cin / g) * fst k * snd k + (if bias then cout else 0)
  | Linear fin fout => fout * fin + fout
  | BatchNorm2d _ | ReLU _ => 0
  end.

(** [torch.randn(d0, d1, ...)]: only the size of the sample is kept. *)
Definition randn (sizes : list Z) : shape := sizes.

(** Lift a pure layer result into a computation. *)
Definition lift {E A} (r : result A) : M E A := fun log => (log, r).

End Torch.

(* ===================================================================== *)
(** ** Calls that leave the process                                       *)
(* ===================================================================== *)

Module Os.
Import Py Torch.

(** The arguments of one [torch.onnx.export] call.  [export_training] is
    the mode of the model object that was handed over. *)
Record export_call : Type := {
  export_training : bool;
  export_args : shape;
  export_f : string;
  opset_version : Z;
  input_names : list string;
  output_names : list string;
  dynamic_axes : gmap string (gmap Z string)
}.

(** Observable events, logged in the order in which they happen. *)
Inductive event : Type :=
| Print (line : string)
| PathExists (path : string)
| SubprocessRun (argv : list string) (check : bool)
| OnnxExport (call : export_call)
| OnnxWrite (f : string) (weights : list (list Z)).

(** What can go wrong inside a blocking call for reasons outside the
    script: Ctrl-C, or an operating-system error (missing executable,
    missing directory, ...). *)
Inductive fault : Type :=
| Interrupted
| Failed (msg : string).

Definition exn_of_fault (f : fault) : exn :=
  match f with
  | Interrupted => KeyboardInterrupt
  | Failed msg => OSError msg
  end.

Inductive completion : Type :=
| Exited (returncode : Z)
| Faulted (f : fault).

(** The outside world of one run: which paths exist, how a child process
    started with a given command line ends, whether the export routine
    is hit by a fault while it traces the model, whether writing the
    exported graph to a path succeeds, the values the global
    random-number generator delivers one after the other, and the text
    [str(e)] of an exception. *)
Record Env : Type := {
  path_exists : string -> bool;
  spawn : list string -> completion;
  tracing : option fault;
  serialize : string -> option fault;
  generator : Z -> Z;
  str : exn -> string
}.

Definition print (line : string) : M event unit := emit (Print line).

(** [os.path.exists(path)]. *)
Definition os_path_exists (env : Env) (path : string) : M event bool :=
  emit (PathExists path);; ret (path_exists env path).

(** [subprocess.run(args, check=...)]; the value is the return code of
    the completed process. *)
Definition subprocess_run (env : Env) (args : list string) (check : bool)
  : M event Z :=
  emit (SubprocessRun args check);;
  match spawn env args with
  | Exited rc =>
      if check && negb (rc =? 0) then raise (CalledProcessError rc args)
      else ret rc
  | Faulted f => raise (exn_of_fault f)
  end.

(** [torch.onnx.export(model, args, f, ...)]: the model, given by its
    [forward] and the values of its parameters, is run once on the sample
    input to trace its graph, so whatever [forward] raises there comes out
    of the call; then the graph and the parameter values are written to
    [f].  The call blocks, so a fault from outside can hit it while it
    traces as well as while it writes. *)
Definition torch_onnx_export {C} (env : Env)
           (model_forward : shape -> M C shape) (weights : list (list Z))
           (call : export_call)
  : M event unit :=
  emit (OnnxExport call);;
  match tracing env with
  | Some f => raise (exn_of_fault f)
  | None =>
      match snd (run (model_forward (export_args call))) with
      | Raise e => raise e
      | Return _ =>
          match serialize env (export_f call) with
          | Some f => raise (exn_of_fault f)
          | None => emit (OnnxWrite (export_f call) weights)
          end
      end
  end.

(** The [if __name__ == "__main__":] block; its text is the same in the
    two scripts, [main] being the [main] of the script at hand. *)
Definition name_main_block (env : Env) (main : M event Z) : M event unit :=
  try_except
    (status <- main;; sys_exit status)
    (fun e =>
       match e with
       | KeyboardInterrupt =>
           Some (print (NL ++ NL ++ "Cancelled by user");; sys_exit 1)
       | _ =>
           if isinstance_Exception e then
             Some (print (NL ++ NL ++ "✗ ERROR: " ++ str env e);; sys_exit 1)
           else None
       end).

(** The command lines started by a run, in order. *)
Fixpoint spawned (log : list event) : list (list string) :=
  match log with
  | [] => []
  | SubprocessRun argv _ :: rest => argv :: spawned rest
  | _ :: rest => spawned rest
  end.

(** The lines written to standard output, in order. *)
Fixpoint printed (log : list event) : list string :=
  match log with
  | [] => []
  | Print line :: rest => line :: printed rest
  | _ :: rest => printed rest
  end.

(** The paths whose existence a run has asked about, in order. *)
Fixpoint probed (log : list event) : list string :=
  match log with
  | [] => []
  | PathExists path :: rest => path :: probed rest
  | _ :: rest => probed rest
  end.

(** The network fetches among them: the [curl] command lines. *)
Definition fetches (log : list event) : list (list string) :=
  filter (fun argv => head argv = Some "curl") (spawned log).

(** The last [n] lines written to standard output. *)
Definition last_printed (n : nat) (log : list event) : list string :=
  drop (length (printed log) - n) (printed log).

(** The files written by the export routine, with the parameter values
    they hold, in order. *)
Fixpoint written (log : list event) : list (string * list (list Z)) :=
  match log with
  | [] => []
  | OnnxWrite f weights :: rest => (f, weights) :: written rest
  | _ :: rest => written rest
  end.

(** The export calls made by a run, in order. *)
Fixpoint exported (log : list event) : list export_call :=
  match log with
  | [] => []
  | OnnxExport c :: rest => c :: exported rest
  | _ :: rest => exported rest
  end.

End Os.

(* ===================================================================== *)
(** ** [scripts/convert_minifasnet.py]                                    *)
(* ===================================================================== *)

Module convert_minifasnet.
Import Py Torch Os.

Module MiniFASNetV2.

(** The attributes assigned in [__init__]. *)
Inductive attr : Type :=
| conv1 | bn1
| conv2_dw | bn2_dw | conv2_sep | bn2_sep
| conv3_dw | bn3_dw | conv3_sep | bn3_sep
| conv4_dw | bn4_dw | conv4_sep | bn4_sep
| conv5_dw | bn5_dw | conv5_sep | bn5_sep
| conv6_dw | bn6_dw | conv6_flatten
| fc | relu.

#[global] Instance attr_eq_dec : EqDecision attr.
Proof. solve_decision. Defined.

(** A model object: its sub-modules and the [training] flag of
    [torch.nn.Module] ([True] after construction). *)
Record t : Type := {
  submodule : attr -> Module;
  training : bool
}.

(** [__init__] below describes the object that construction yields; the
    constructors of [torch.nn] raise for a negative [embedding_size] or
    kernel extent, so properties of a returning pass are stated for
    positive ones where the sign matters. *)
Definition default_embedding_size : Z := 128.
Definition default_conv6_kernel : Z * Z := (5, 5).

Definition __init__ (embedding_size : Z) (conv6_kernel : Z * Z) : t :=
  {| submodule := fun a =>
       match a with
       | conv1 => Conv2d 3 32 (_pair 3) 2 1 1 false
       | bn1 => BatchNorm2d 32
       | conv2_dw => Conv2d 32 32 (_pair 3) 1 1 32 false
       | bn2_dw => BatchNorm2d 32
       | conv2_sep => Conv2d 32 64 (_pair 1) 1 0 1 false
       | bn2_sep => BatchNorm2d 64
       | conv3_dw => Conv2d 64 64 (_pair 3) 2 1 64 false
       | bn3_dw => BatchNorm2d 64
       | conv3_sep => Conv2d 64 64 (_pair 1) 1 0 1 false
       | bn3_sep => BatchNorm2d 64
       | conv4_dw => Conv2d 64 64 (_pair 3) 1 1 64 false
       | bn4_dw => BatchNorm2d 64
       | conv4_sep => Conv2d 64 128 (_pair 1) 1 0 1 false
       | bn4_sep => BatchNorm2d 128
       | conv5_dw => Conv2d 128 128 (_pair 3) 2 1 128 false
       | bn5_dw => BatchNorm2d 128
       | conv5_sep => Conv2d 128 128 (_pair 1) 1 0 1 false
       | bn5_sep => BatchNorm2d 128
       | conv6_dw => Conv2d 128 128 conv6_kernel 1 0 128 false
       | bn6_dw => BatchNorm2d 128
       | conv6_flatten => Conv2d 128 embedding_size (_pair 1) 1 0 1 false
       | fc => Linear embedding_size 2
       | relu => ReLU true
       end;
     training := true |}.

(** [model.eval()]. *)
Definition eval (self : t) : t :=
  {| submodule := submodule self; training := false |}.

(** One sub-module invocation [self.<a>(x)], as seen in the call log. *)
Inductive invocation : Type :=
| Invoke (a : attr) (input : shape).

Definition callee (i : invocation) : attr :=
  match i with Invoke a _ => a end.

Definition call (self : t) (a : attr) (x : shape) : M invocation shape :=
  emit (Invoke a x);; lift (apply (training self) (submodule self a) x).

Definition forward (self : t) (x : shape) : M invocation shape :=
  x <- call self conv1 x;; x <- call self bn1 x;; x <- call self relu x;;

  x <- call self conv2_dw x;; x <- call self bn2_dw x;; x <- call self relu x;;
  x <- call self conv2_sep x;; x <- call self bn2_sep x;; x <- call self relu x;;

  x <- call self conv3_dw x;; x <- call self bn3_dw x;; x <- call self relu x;;
  x <- call self conv3_sep x;; x <- call self bn3_sep x;; x <- call self relu x;;

  x <- call self conv4_dw x;; x <- call self bn4_dw x;; x <- call self relu x;;
  x <- call self conv4_sep x;; x <- call self bn5_sep x;; x <- call self relu x;;

  x <- call self conv5_dw x;; x <- call self bn5_dw x;; x <- call self relu x;;
  x <- call self conv5_sep x;; x <- call self bn5_sep x;; x <- call self relu x;;

  x <- call self conv6_dw x;; x <- call self bn6_dw x;; x <- call self relu x;;
  x <- call self conv6_flatten x;;
  n <- lift (size x 0);;
  x <- lift (view x [n; -1]);;

  x <- call self fc x;;
  ret x.

(** The attributes in the order in which [__init__] assigns them, which
    is the order in which their parameters are drawn. *)
Definition construction_order : list attr :=
  [conv1; bn1;
   conv2_dw; bn2_dw; conv2_sep; bn2_sep;
   conv3_dw; bn3_dw; conv3_sep; bn3_sep;
   conv4_dw; bn4_dw; conv4_sep; bn4_sep;
   conv5_dw; bn5_dw; conv5_sep; bn5_sep;
   conv6_dw; bn6_dw; conv6_flatten;
   fc; relu].

(** The random values of the sub-modules [order], the first of which
    starts at position [offset] of the generator's output [g]. *)
Fixpoint drawn (g : Z -> Z) (self : t) (offset : Z) (order : list attr)
  : list (list Z) :=
  match order with
  | [] => []
  | a :: rest =>
      let n := random_numel (submodule self a) in
      (g <$> seqZ offset n) :: drawn g self (offset + n) rest
  end.

(** The randomly initialised parameter values of a model constructed
    while the generator delivers [g], one list per attribute. *)
Definition parameters (g : Z -> Z) (self : t) : list (list Z) :=
  drawn g self 0 construction_order.

(** How many values the construction of the model draws in all. *)
Definition total_drawn (self : t) : Z :=
  foldr (fun a n => random_numel (submodule self a) + n) 0 construction_order.

(** How many times sub-module [a] was invoked in a pass. *)
Definition applications (a : attr) (log : list invocation) : nat :=
  length (filter (fun i => callee i = a) log).

(** The sub-module invoked right after the first invocation of [a]. *)
Fixpoint next_after (a : attr) (log : list invocation) : option attr :=
  match log with
  | [] => None
  | i :: rest =>
      if decide (callee i = a) then callee <$> head rest
      else next_after a rest
  end.

End MiniFASNetV2.

Definition output_path : string := "../public/models/onnx/minifasnet_v2.onnx".

(** The keyword arguments of the [torch.onnx.export] call in [main]. *)
Definition export_request (model : MiniFASNetV2.t) (dummy_input : shape)
  : export_call :=
  {| export_training := MiniFASNetV2.training model;
     export_args := dummy_input;
     export_f := output_path;
     opset_version := 13;
     input_names := ["input"];
     output_names := ["output"];
     dynamic_axes :=
       {[ "input" := {[ 0 := "batch_size" ]};
          "output" := {[ 0 := "batch_size" ]} ]} |}.

(** The model object that [main] builds and switches to inference mode. *)
Definition exported_model : MiniFASNetV2.t :=
  MiniFASNetV2.eval
    (MiniFASNetV2.__init__ MiniFASNetV2.default_embedding_size (1, 1)).

Definition main (env : Env) : M event Z :=
  print (str_mul "=" 60);;
  print "MiniFASNetV2 PyTorch → ONNX Converter";;
  print (str_mul "=" 60);;
  print "";;
  print "Creating MiniFASNetV2 model...";;
  let model :=
    MiniFASNetV2.__init__ MiniFASNetV2.default_embedding_size (1, 1) in
  let model := MiniFASNetV2.eval model in
  print ("✓ Model created" ++ NL);;
  let dummy_input := randn [1; 3; 80; 80] in
  print "Exporting to ONNX...";;
  try_except
    (torch_onnx_export env (MiniFASNetV2.forward model)
       (MiniFASNetV2.parameters (generator env) model)
       (export_request model dummy_input);;
     print "";;
     print (str_mul "=" 60);;
     print "✓ SUCCESS: MiniFASNetV2 ONNX model created!";;
     print ("  Location: " ++ output_path);;
     print "";;
     print "⚠️  NOTE: This is the model ARCHITECTURE only.";;
     print "   For production, download pretrained weights from:";;
     print "   https://github.com/minivision-ai/Silent-Face-Anti-Spoofing";;
     print (str_mul "=" 60);;
     ret 0)
    (fun e =>
       if isinstance_Exception e then
         Some (print "";;
               print (str_mul "=" 60);;
               print ("✗ ERROR: Export failed - " ++ str env e);;
               print (str_mul "=" 60);;
               ret 1)
       else None).

(** The [if __name__ == "__main__":] block. *)
Definition __main__ (env : Env) : M event unit := name_main_block env (main env).

(** Exit status of [python convert_minifasnet.py]. *)
Definition exit_code (env : Env) : Z := exit_status (snd (run (__main__ env))).

End convert_minifasnet.

(* ===================================================================== *)
(** ** [scripts/convert_blazeface.py]                                     *)
(* ===================================================================== *)

Module convert_blazeface.
Import Py Os.

Definition tflite_path : string := "blaze_face_short_range.tflite".
Definition onnx_path : string := "../public/models/onnx/blazeface.onnx".

(** The argument list of the first [subprocess.run] call. *)
Definition download_argv : list string :=
  ["curl"; "-L"; "-o"; tflite_path;
   "https://storage.googleapis.com/mediapipe-models/face_detector/blaze_face_short_range/float16/1/blaze_face_short_range.tflite"].

(** The argument list of the second [subprocess.run] call. *)
Definition convert_argv : list string :=
  ["python"; "-m"; "tf2onnx.convert";
   "--tflite"; tflite_path;
   "--output"; onnx_path;
   "--opset"; "13"].

Definition main (env : Env) : M event Z :=
  print (str_mul "=" 60);;
  print "BlazeFace TFLite → ONNX Converter";;
  print (str_mul "=" 60);;
  print "";;
  print ("Input:  " ++ tflite_path);;
  print ("Output: " ++ onnx_path);;
  print "";;
  (* Step 1: Download TFLite model if not exists *)
  present <- os_path_exists env tflite_path;;
  (if negb present then
     print "Downloading BlazeFace TFLite model...";;
     _ <- subprocess_run env download_argv true;;
     print ("✓ Downloaded" ++ NL)
   else ret tt);;
  (* Step 2: Convert *)
  print "Converting TFLite → ONNX...";;
  try_except
    (_ <- subprocess_run env convert_argv true;;
     print "";;
     print (str_mul "=" 60);;
     print "✓ SUCCESS: BlazeFace ONNX model created!";;
     print ("  Location: " ++ onnx_path);;
     print (str_mul "=" 60);;
     ret 0)
    (fun e =>
       if isinstance_CalledProcessError e then
         Some (print "";;
               print (str_mul "=" 60);;
               print "✗ ERROR: Conversion failed";;
               print ("  " ++ str env e);;
               print (str_mul "=" 60);;
               ret 1)
       else None).

(** The [if __name__ == "__main__":] block. *)
Definition __main__ (env : Env) : M event unit := name_main_block env (main env).

(** Exit status of [python convert_blazeface.py]. *)
Definition exit_code (env : Env) : Z := exit_status (snd (run (__main__ env))).

End convert_blazeface.

(* ===================================================================== *)
(** ** Sample environments                                                *)
(* ===================================================================== *)

Module Samples.
Import Py Os.

(** A world in which the model file is [present] or not, the download
    ends as [fetch] says and every other child process as [convert]
    says, and exceptions are rendered by [render]; no fault hits an
    export, and the generator delivers zeros. *)
Definition world_with (present : bool) (fetch convert : completion)
           (render : exn -> string) : Env :=
  {| path_exists := fun _ => present;
     spawn := fun argv =>
       if decide (argv = convert_blazeface.download_argv) then fetch
       else convert;
     tracing := None;
     serialize := fun _ => None;
     generator := fun _ => 0;
     str := render |}.

Definition world (present : bool) (fetch convert : completion) : Env :=
  world_with present fetch convert (fun _ => "failure").

(** A world for Procedure B: the export is hit by [during_trace], if by
    anything, and the generator delivers [values]. *)
Definition export_world (during_trace : option fault) (values : Z -> Z)
  : Env :=
  {| path_exists := fun _ => false;
     spawn := fun _ => Exited 0;
     tracing := during_trace;
     serialize := fun _ => None;
     generator := values;
     str := fun _ => "failure" |}.

End Samples.

(* ===================================================================== *)
(** ** Layer lemmas                                                       *)
(* ===================================================================== *)

Section Layers.
Import Py Torch.

Lemma conv_out_pointwise (i : Z) : conv_out i 1 1 0 = i.
Proof. unfold conv_out. rewrite Z.div_1_r. lia. Qed.

Lemma conv_out_same (i : Z) : conv_out i 3 1 1 = i.
Proof. unfold conv_out. rewrite Z.div_1_r. lia. Qed.

Lemma apply_ReLU (tr inplace : bool) (x y : shape) :
  apply tr (ReLU inplace) x = Return y -> y = x.
Proof. cbn. congruence. Qed.

(** A batch normalisation that returns has seen a 4-D operand with its own
    number of channels and, in training mode, more than one value per
    channel; it leaves the size unchanged. *)
Lemma apply_BatchNorm2d_inv (tr : bool) (nf : Z) (x y : shape) :
  apply tr (BatchNorm2d nf) x = Return y ->
  y = x /\ exists n h w,
      x = [n; nf; h; w] /\ tr && (n * (h * w) =? 1) = false.
Proof.
  cbn. destruct x as [|n [|c [|h [|w [|? ?]]]]]; try discriminate.
  destruct (tr && (n * (h * w) =? 1)) eqn:Hone; [discriminate|].
  destruct (Z.eqb_spec c nf) as [->|]; cbn; [|discriminate].
  intros [= <-]. split; [reflexivity|]. exists n, h, w. auto.
Qed.

Lemma apply_BatchNorm2d_ok (tr : bool) (nf n h w : Z) :
  tr && (n * (h * w) =? 1) = false ->
  apply tr (BatchNorm2d nf) [n; nf; h; w] = Return [n; nf; h; w].
Proof. cbn. intros ->. rewrite Z.eqb_refl. reflexivity. Qed.

(** A 1x1 convolution of stride 1 without padding only changes the
    number of channels of a batched operand. *)
Lemma apply_pointwise (tr : bool) (cin cout g n c h w : Z) (b : bool)
      (y : shape) :
  apply tr (Conv2d cin cout (_pair 1) 1 0 g b) [n; c; h; w] = Return y ->
  c = cin /\ y = [n; cout; h; w].
Proof.
  cbn. unfold conv2d_hw. destruct (Z.eqb_spec c cin) as [->|]; cbn;
    [|discriminate].
  destruct (_ || _); [discriminate|].
  rewrite !conv_out_pointwise. cbn. intros [= <-]. auto.
Qed.

End Layers.

(* ===================================================================== *)
(** ** The forward pass of [MiniFASNetV2]                                 *)
(* ===================================================================== *)

Section ForwardPass.
Import Py Torch Os convert_minifasnet MiniFASNetV2.

Lemma call_run (self : t) (a : attr) (x : shape) (log : list invocation) :
  call self a x log
  = (log ++ [Invoke a x], apply (training self) (submodule self a) x).
Proof. reflexivity. Qed.

Lemma bind_call {B} (self : t) (a : attr) (x : shape)
      (k : shape -> M invocation B) (log : list invocation) :
  bind (call self a x) k log
  = match apply (training self) (submodule self a) x with
    | Return y => k y (log ++ [Invoke a x])
    | Raise e => (log ++ [Invoke a x], Raise e)
    end.
Proof.
  unfold bind. rewrite call_run.
  destruct (apply (training self) (submodule self a) x); reflexivity.
Qed.

Lemma bind_lift {E A B} (r : result A) (k : A -> M E B) (log : list E) :
  bind (lift r) k log
  = match r with
    | Return y => k y log
    | Raise e => (log, Raise e)
    end.
Proof. unfold bind, lift. destruct r; reflexivity. Qed.

(** One statement of [forward]: either the call returns and the pass goes
    on with the value, or it raises and the pass stops there. *)
Ltac step :=
  first [ rewrite bind_call | rewrite bind_lift ];
  match goal with
  | |- context [match ?r with Return _ => _ | Raise _ => _ end] =>
      let H := fresh "Hstep" in destruct r eqn:H
  end;
  cbv beta.

(** Membership of an invocation in an explicit call log. *)
Ltac find_call H :=
  repeat (apply elem_of_cons in H as [H|H]; [try discriminate H|]);
  try (apply elem_of_nil in H; contradiction).

(** Whatever reaches [conv4_sep] has gone through [bn4_dw] and [relu]. *)
Lemma conv4_sep_operand (self : t) (x xi : shape) :
  Invoke conv4_sep xi ∈ fst (run (forward self x)) ->
  exists x0 x1,
    apply (training self) (submodule self bn4_dw) x0 = Return x1
    /\ apply (training self) (submodule self relu) x1 = Return xi.
Proof.
  set (P := fun log : list invocation =>
              Invoke conv4_sep xi ∈ log ->
              exists x0 x1,
                apply (training self) (submodule self bn4_dw) x0 = Return x1
                /\ apply (training self) (submodule self relu) x1 = Return xi).
  change (P (fst (run (forward self x)))).
  unfold run, forward.
  repeat (step;
          [| subst P; cbn [fst app]; intros Hin; find_call Hin;
             injection Hin as <-; eauto]).
  subst P; cbn [fst app]; intros Hin; find_call Hin.
  injection Hin as <-; eauto.
Qed.

(** C1 (the code departs from the claim): with the model of [main] the
    forward pass on a tensor of size (1, 3, 80, 80) does not return a
    tensor of size (1, 2); it raises at the final linear layer, which
    receives 12800 features per sample instead of 128. *)
Theorem forward_80x80_raises :
  run (forward exported_model (randn [1; 3; 80; 80]))
  = ([Invoke conv1 [1; 3; 80; 80];
      Invoke bn1 [1; 32; 40; 40]; Invoke relu [1; 32; 40; 40];
      Invoke conv2_dw [1; 32; 40; 40];
      Invoke bn2_dw [1; 32; 40; 40]; Invoke relu [1; 32; 40; 40];
      Invoke conv2_sep [1; 32; 40; 40];
      Invoke bn2_sep [1; 64; 40; 40]; Invoke relu [1; 64; 40; 40];
      Invoke conv3_dw [1; 64; 40; 40];
      Invoke bn3_dw [1; 64; 20; 20]; Invoke relu [1; 64; 20; 20];
      Invoke conv3_sep [1; 64; 20; 20];
      Invoke bn3_sep [1; 64; 20; 20]; Invoke relu [1; 64; 20; 20];
      Invoke conv4_dw [1; 64; 20; 20];
      Invoke bn4_dw [1; 64; 20; 20]; Invoke relu [1; 64; 20; 20];
      Invoke conv4_sep [1; 64; 20; 20];
      Invoke bn5_sep [1; 128; 20; 20]; Invoke relu [1; 128; 20; 20];
      Invoke conv5_dw [1; 128; 20; 20];
      Invoke bn5_dw [1; 128; 10; 10]; Invoke relu [1; 128; 10; 10];
      Invoke conv5_sep [1; 128; 10; 10];
      Invoke bn5_sep [1; 128; 10; 10]; Invoke relu [1; 128; 10; 10];
      Invoke conv6_dw [1; 128; 10; 10];
      Invoke bn6_dw [1; 128; 10; 10]; Invoke relu [1; 128; 10; 10];
      Invoke conv6_flatten [1; 128; 10; 10];
      Invoke fc [1; 12800]],
     Raise (RuntimeError "mat1 and mat2 shapes cannot be multiplied")).
Proof. vm_compute. reflexivity. Qed.

(** C2 (the code departs from the claim): with the kernel (1, 1) that
    [main] passes, [conv6_dw] receives a 10x10 map from an 80x80 input and
    hands a 10x10 map on to [bn6_dw]; the map is not reduced to 1x1. *)
Theorem conv6_dw_keeps_10x10 :
  let log := fst (run (forward exported_model (randn [1; 3; 80; 80]))) in
  submodule exported_model conv6_dw = Conv2d 128 128 (1, 1) 1 0 128 false
  /\ log !! 27%nat = Some (Invoke conv6_dw [1; 128; 10; 10])
  /\ apply (training exported_model) (submodule exported_model conv6_dw)
       [1; 128; 10; 10] = Return [1; 128; 10; 10]
  /\ log !! 28%nat = Some (Invoke bn6_dw [1; 128; 10; 10]).
Proof. vm_compute. repeat split; reflexivity. Qed.

(** C3: in every forward pass, of any model object and on any operand,
    [bn4_sep] is never invoked; the sub-module invoked right after
    [conv4_sep] is [bn5_sep]; and a pass that gets as far as [conv6_dw]
    has invoked [bn5_sep] exactly twice. *)
Theorem forward_normalises_block4_with_bn5_sep (self : t) (x : shape) :
  let log := fst (run (forward self x)) in
  applications bn4_sep log = 0%nat
  /\ (forall b, next_after conv4_sep log = Some b -> b = bn5_sep)
  /\ (applications conv6_dw log <> 0%nat ->
      next_after conv4_sep log = Some bn5_sep
      /\ applications bn5_sep log = 2%nat).
Proof.
  intros log; subst log.
  set (P := fun log : list invocation =>
              applications bn4_sep log = 0%nat
              /\ (forall b, next_after conv4_sep log = Some b -> b = bn5_sep)
              /\ (applications conv6_dw log <> 0%nat ->
                  next_after conv4_sep log = Some bn5_sep
                  /\ applications bn5_sep log = 2%nat)).
  change (P (fst (run (forward self x)))).
  unfold run, forward.
  repeat (step; [| subst P; vm_compute; repeat split; congruence]).
  subst P; vm_compute; repeat split; congruence.
Qed.

Lemma forward_normalises_block4_with_bn5_sep_witness :
  let log := fst (run (forward exported_model (randn [1; 3; 80; 80]))) in
  next_after conv4_sep log = Some bn5_sep
  /\ applications bn5_sep log = 2%nat.
Proof.
  intros log.
  destruct (forward_normalises_block4_with_bn5_sep
              exported_model (randn [1; 3; 80; 80])) as (_ & _ & Htwice).
  apply Htwice. vm_compute. discriminate.
Defined.

(** C9: for a model built by [__init__], in training or in inference
    mode, whenever a forward pass invokes [conv4_sep] and that call
    returns, its result has 128 channels and [bn5_sep], a 128-channel
    [BatchNorm2d], accepts it: the call returns and raises nothing. *)
Theorem bn5_sep_accepts_conv4_sep_output
        (embedding_size : Z) (conv6_kernel : Z * Z) (inference : bool)
        (x xi y : shape) :
  let net := __init__ embedding_size conv6_kernel in
  let self := if inference then eval net else net in
  Invoke conv4_sep xi ∈ fst (run (forward self x)) ->
  apply (training self) (submodule self conv4_sep) xi = Return y ->
  submodule self bn5_sep = BatchNorm2d 128
  /\ (exists n h w, y = [n; 128; h; w])
  /\ apply (training self) (submodule self bn5_sep) y = Return y.
Proof.
  intros net self Hin Hconv.
  destruct (conv4_sep_operand self x xi Hin) as (x0 & x1 & Hbn & Hrelu).
  assert (Hmods : submodule self bn4_dw = BatchNorm2d 64
                  /\ submodule self relu = ReLU true
                  /\ submodule self conv4_sep
                     = Conv2d 64 128 (_pair 1) 1 0 1 false
                  /\ submodule self bn5_sep = BatchNorm2d 128)
    by (subst self net; destruct inference; repeat split; reflexivity).
  destruct Hmods as (Ebn & Erelu & Econv & Ebn5).
  rewrite Ebn in Hbn. rewrite Erelu in Hrelu. rewrite Econv in Hconv.
  rewrite Ebn5.
  apply apply_ReLU in Hrelu as ->.
  apply apply_BatchNorm2d_inv in Hbn as (-> & n & h & w & -> & Hone).
  apply apply_pointwise in Hconv as (_ & ->).
  split; [reflexivity|]. split; [by exists n, h, w|].
  by apply apply_BatchNorm2d_ok.
Qed.

Lemma bn5_sep_accepts_conv4_sep_output_witness :
  apply false (BatchNorm2d 128) [1; 128; 20; 20] = Return [1; 128; 20; 20].
Proof.
  refine (proj2 (proj2 (bn5_sep_accepts_conv4_sep_output
                          default_embedding_size (1, 1) true
                          [1; 3; 80; 80] [1; 64; 20; 20] [1; 128; 20; 20]
                          _ _))).
  - vm_compute. repeat constructor.
  - reflexivity.
Defined.

(** The pass does return two logits when the last depthwise kernel spans
    the 10x10 map that is left of an 80x80 input; with the default kernel
    (5, 5) it raises like with (1, 1).  With the kernel (1, 1) an 8x8 input
    is the one that goes through. *)
Example forward_80x80_kernel_10 :
  snd (run (forward (eval (__init__ default_embedding_size (10, 10)))
              [1; 3; 80; 80]))
  = Return [1; 2].
Proof. vm_compute. reflexivity. Qed.

Example forward_80x80_default_kernel :
  snd (run (forward (eval (__init__ default_embedding_size
                             default_conv6_kernel))
              [1; 3; 80; 80]))
  = Raise (RuntimeError "mat1 and mat2 shapes cannot be multiplied").
Proof. vm_compute. reflexivity. Qed.

Example forward_8x8_kernel_1 :
  snd (run (forward exported_model [1; 3; 8; 8])) = Return [1; 2].
Proof. vm_compute. reflexivity. Qed.

End ForwardPass.

(* ===================================================================== *)
(** ** Procedure B: [convert_minifasnet.main]                             *)
(* ===================================================================== *)

Section ProcedureB.
Import Py Torch Os convert_minifasnet.

(** Case analysis on the fault, if any, that hits the export, followed by
    evaluation of the run in each case. *)
Ltac traced env :=
  unfold exit_code, __main__, main, torch_onnx_export;
  destruct (tracing env) as [[|?]|];
  vm_compute.

(** [main] hands [exported_model] and a (1, 3, 80, 80) sample to the
    export routine, once. *)
Lemma main_exported (env : Env) :
  exported (fst (run (main env)))
  = [export_request exported_model (randn [1; 3; 80; 80])].
Proof. traced env; reflexivity. Qed.

(** Tracing the model on the sample raises, so the export fails and
    [main] reports it: unless the export is interrupted from outside,
    [main] returns 1. *)
Lemma main_returns_1 (env : Env) :
  tracing env <> Some Interrupted -> snd (run (main env)) = Return 1.
Proof. traced env; intros Hfault; [by destruct Hfault|reflexivity..]. Qed.

(** [main] never returns 0: it returns 1, or an interrupt leaves it. *)
Lemma minifasnet_main_outcome (env : Env) :
  snd (run (main env)) = Return 1
  \/ snd (run (main env)) = Raise KeyboardInterrupt.
Proof. traced env; auto. Qed.

(** No run of the script gets as far as writing the exported file. *)
Lemma minifasnet_writes_nothing (env : Env) :
  written (fst (run (__main__ env))) = [].
Proof. traced env; reflexivity. Qed.

(** The export routine does write the parameter values it was given when
    the trace returns and nothing hits it. *)
Lemma export_writes_weights {C} (env : Env) (model_forward : shape -> M C shape)
      (weights : list (list Z)) (call : export_call) (y : shape) :
  tracing env = None ->
  snd (run (model_forward (export_args call))) = Return y ->
  serialize env (export_f call) = None ->
  written (fst (run (torch_onnx_export env model_forward weights call)))
  = [(export_f call, weights)].
Proof.
  intros Htrace Hret Hwrite. unfold torch_onnx_export, run, bind, emit.
  cbn [app]. unfold run in Hret. rewrite Htrace, Hret, Hwrite. reflexivity.
Qed.

(** C8: [main] calls the export routine exactly once, with a sample of
    size (1, 3, 80, 80), the fixed output path, operator-set version 13,
    the tensor names [input] and [output], and a [dynamic_axes]
    dictionary that names dimension 0, and no other, of both tensors. *)
Theorem main_export_arguments (env : Env) :
  exists c,
    exported (fst (run (main env))) = [c]
    /\ export_args c = [1; 3; 80; 80]
    /\ export_f c = "../public/models/onnx/minifasnet_v2.onnx"
    /\ opset_version c = 13
    /\ input_names c = ["input"]
    /\ output_names c = ["output"]
    /\ dynamic_axes c !! "input" = Some {[ 0 := "batch_size" ]}
    /\ dynamic_axes c !! "output" = Some {[ 0 := "batch_size" ]}
    /\ dom (dynamic_axes c) = {[ "input"; "output" ]}.
Proof.
  exists (export_request exported_model (randn [1; 3; 80; 80])).
  split; [apply main_exported|].
  repeat split; reflexivity.
Qed.

End ProcedureB.

(* ===================================================================== *)
(** ** Procedure A: [convert_blazeface.main]                              *)
(* ===================================================================== *)

Section ProcedureA.
Import Py Os convert_blazeface.

(** A run of [main] depends on the environment only through four
    answers: whether the input file exists, how the two child processes
    end, and how exceptions are rendered. *)
Lemma main_answers (env : Env) :
  main env
  = main (Samples.world_with (path_exists env tflite_path)
            (spawn env download_argv) (spawn env convert_argv) (str env)).
Proof.
  unfold main, os_path_exists, subprocess_run, Samples.world_with.
  cbn [path_exists spawn str].
  destruct (decide (download_argv = download_argv)); [|contradiction].
  destruct (decide (convert_argv = download_argv)); [discriminate|].
  reflexivity.
Qed.

(** Case analysis on these answers, followed by evaluation of the run in
    each case. *)
Ltac answers env :=
  unfold exit_code, __main__;
  rewrite (main_answers env);
  generalize (str env); intros render;
  destruct (path_exists env tflite_path);
  destruct (spawn env download_argv) as [[|?|?]|[|?]];
  destruct (spawn env convert_argv) as [[|?|?]|[|?]];
  vm_compute.

(** A command line that is not in an explicit list of command lines. *)
Ltac not_started H :=
  exfalso; apply list_elem_of_In in H; cbn in H; intuition discriminate.

(** C4: when the conversion subprocess has been started and exits with a
    non-zero code, [main] returns 1 (nothing is raised out of [main]) and
    the last five lines printed are the diagnostic; the subprocess was
    started with the fixed input path, the fixed output path and
    operator set 13, and apart from the optional download it is the only
    process started. *)
Theorem conversion_failure_is_caught (env : Env) (rc : Z) :
  let log := fst (run (main env)) in
  convert_argv ∈ spawned log ->
  spawn env convert_argv = Exited rc ->
  rc <> 0 ->
  convert_argv = ["python"; "-m"; "tf2onnx.convert";
                  "--tflite"; "blaze_face_short_range.tflite";
                  "--output"; "../public/models/onnx/blazeface.onnx";
                  "--opset"; "13"]
  /\ (spawned log = [convert_argv]
      \/ spawned log = [download_argv; convert_argv])
  /\ snd (run (main env)) = Return 1
  /\ last_printed 5 log
     = [""; str_mul "=" 60; "✗ ERROR: Conversion failed";
        ("  " ++ str env (CalledProcessError rc convert_argv))%string;
        str_mul "=" 60].
Proof.
  answers env; intros Hin [= <-] Hnz;
    try (exfalso; apply Hnz; reflexivity);
    try (not_started Hin);
    repeat split; auto.
Qed.

Lemma conversion_failure_is_caught_witness :
  snd (run (main (Samples.world true (Exited 0) (Exited 2)))) = Return 1.
Proof.
  refine (proj1 (proj2 (proj2
    (conversion_failure_is_caught
       (Samples.world true (Exited 0) (Exited 2)) 2 _ _ _)))).
  - vm_compute. repeat constructor.
  - reflexivity.
  - discriminate.
Defined.

(** C5: when the input file exists no fetch is started; when it does not
    exist exactly one fetch is started, with the fixed URL and writing to
    the input path, and it is the first process of the run, so it
    precedes any conversion. *)
Theorem fetch_only_when_absent (env : Env) :
  let log := fst (run (main env)) in
  (path_exists env tflite_path = true ->
   fetches log = [] /\ spawned log = [convert_argv])
  /\ (path_exists env tflite_path = false ->
      fetches log
      = [["curl"; "-L"; "-o"; "blaze_face_short_range.tflite";
          "https://storage.googleapis.com/mediapipe-models/face_detector/blaze_face_short_range/float16/1/blaze_face_short_range.tflite"]]
      /\ (spawned log = [download_argv]
          \/ spawned log = [download_argv; convert_argv])).
Proof.
  answers env; repeat split; intros; try discriminate; auto.
Qed.

Lemma fetch_only_when_absent_witness :
  fetches (fst (run (main (Samples.world true (Exited 0) (Exited 0))))) = []
  /\ length
       (fetches (fst (run (main (Samples.world false (Exited 0) (Exited 0))))))
     = 1%nat.
Proof.
  split.
  - refine (proj1 (proj1 (fetch_only_when_absent
                            (Samples.world true (Exited 0) (Exited 0))) _)).
    reflexivity.
  - rewrite (proj1 (proj2 (fetch_only_when_absent
                             (Samples.world false (Exited 0) (Exited 0)))
                       eq_refl)).
    reflexivity.
Defined.

(** C6: when the input file is absent and the fetch command exits with a
    non-zero code, [CalledProcessError] leaves [main] uncaught, the
    script exits with status 1, and the fetch is the only process that
    was started: no conversion is attempted. *)
Theorem fetch_failure_aborts (env : Env) (rc : Z) :
  path_exists env tflite_path = false ->
  spawn env download_argv = Exited rc ->
  rc <> 0 ->
  snd (run (main env)) = Raise (CalledProcessError rc download_argv)
  /\ exit_code env = 1
  /\ spawned (fst (run (__main__ env))) = [download_argv].
Proof.
  intros Hexists Hfetch Hnz. unfold exit_code.
  vm_compute in Hexists, Hfetch.
  destruct rc as [|p|p]; [contradiction| |];
    vm_compute; rewrite Hexists, Hfetch; auto.
Qed.

Lemma fetch_failure_aborts_witness :
  exit_code (Samples.world false (Exited 22) (Exited 0)) = 1.
Proof.
  refine (proj1 (proj2
    (fetch_failure_aborts
       (Samples.world false (Exited 22) (Exited 0)) 22 _ _ _))).
  - reflexivity.
  - reflexivity.
  - discriminate.
Defined.

End ProcedureA.

(* ===================================================================== *)
(** ** Exit status of the two scripts                                     *)
(* ===================================================================== *)

Section ExitCodes.
Import Py Os.

(** What the [__main__] block makes of the outcome of [main]. *)
Lemma name_main_block_exit (env : Env) (main : M event Z) :
  exit_status (snd (run (name_main_block env main)))
  = match snd (run main) with
    | Return status => status
    | Raise (SystemExit code) => code
    | Raise _ => 1
    end.
Proof.
  unfold name_main_block, run, try_except, bind.
  destruct (main []) as [log [status|e]]; [reflexivity|].
  destruct e; reflexivity.
Qed.

(** Procedure A's [main] returns 0 or 1, or raises something other than
    [SystemExit]. *)
Lemma blazeface_main_outcome (env : Env) :
  match snd (run (convert_blazeface.main env)) with
  | Return status => status = 0 \/ status = 1
  | Raise e => forall code, e <> SystemExit code
  end.
Proof.
  rewrite (main_answers env).
  destruct (path_exists env _);
    destruct (spawn env convert_blazeface.download_argv) as [[|?|?]|[|?]];
    destruct (spawn env convert_blazeface.convert_argv) as [[|?|?]|[|?]];
    vm_compute; auto; intros code; discriminate.
Qed.

(** C7: the exit status of either script is 0 when its [main] returned 0
    and 1 in every other case; in particular it is 0 or 1.  For the
    [__main__] block itself, whatever [main] it guards: status 0 after
    [main] returned 0, status 1 after it returned 1, status 1 after a
    [KeyboardInterrupt], status 1 after any [Exception] that escaped
    [main]. *)
Theorem exit_codes_are_0_or_1 (env : Env) :
  let status_after (r : result Z) : Z :=
    match r with Return 0 => 0 | _ => 1 end in
  convert_blazeface.exit_code env
  = status_after (snd (run (convert_blazeface.main env)))
  /\ convert_minifasnet.exit_code env
     = status_after (snd (run (convert_minifasnet.main env)))
  /\ (convert_blazeface.exit_code env = 0
      \/ convert_blazeface.exit_code env = 1)
  /\ (convert_minifasnet.exit_code env = 0
      \/ convert_minifasnet.exit_code env = 1)
  /\ forall main : M event Z,
      let status := exit_status (snd (run (name_main_block env main))) in
      (snd (run main) = Return 0 -> status = 0)
      /\ (snd (run main) = Return 1 -> status = 1)
      /\ (snd (run main) = Raise KeyboardInterrupt -> status = 1)
      /\ (forall e, isinstance_Exception e = true ->
                    snd (run main) = Raise e -> status = 1).
Proof.
  intros status_after.
  assert (HA : convert_blazeface.exit_code env
               = status_after (snd (run (convert_blazeface.main env)))).
  { unfold convert_blazeface.exit_code, convert_blazeface.__main__.
    rewrite name_main_block_exit.
    pose proof (blazeface_main_outcome env) as Hout.
    destruct (snd (run (convert_blazeface.main env))) as [status|e].
    - destruct Hout as [->| ->]; reflexivity.
    - destruct e; try reflexivity. exfalso. by apply (Hout code). }
  assert (HB : convert_minifasnet.exit_code env
               = status_after (snd (run (convert_minifasnet.main env)))).
  { unfold convert_minifasnet.exit_code, convert_minifasnet.__main__.
    rewrite name_main_block_exit.
    destruct (minifasnet_main_outcome env) as [-> | ->]; reflexivity. }
  split; [exact HA|]. split; [exact HB|].
  split.
  { rewrite HA. destruct (snd _) as [[|?|?]|?]; cbn; auto. }
  split.
  { rewrite HB. generalize (snd (run (convert_minifasnet.main env))).
    intros [[|?|?]|?]; cbn; auto. }
  intros main status. subst status. rewrite name_main_block_exit.
  repeat split.
  - intros ->. reflexivity.
  - intros ->. reflexivity.
  - intros ->. reflexivity.
  - intros e He ->. destruct e; try reflexivity; discriminate.
Qed.

Lemma exit_codes_are_0_or_1_witness :
  exit_status
    (snd (run (name_main_block
                 (Samples.world true (Exited 0) (Exited 0))
                 (convert_blazeface.main
                    (Samples.world true (Exited 0) (Exited 0))))))
  = 0
  /\ exit_status
       (snd (run (name_main_block
                    (Samples.world false (Exited 0) (Faulted Interrupted))
                    (convert_blazeface.main
                       (Samples.world false (Exited 0) (Faulted Interrupted))))))
     = 1.
Proof.
  split.
  - destruct (exit_codes_are_0_or_1
                (Samples.world true (Exited 0) (Exited 0)))
      as (_ & _ & _ & _ & Hblock).
    destruct (Hblock (convert_blazeface.main
                        (Samples.world true (Exited 0) (Exited 0))))
      as (Hsuccess & _).
    apply Hsuccess. reflexivity.
  - destruct (exit_codes_are_0_or_1
                (Samples.world false (Exited 0) (Faulted Interrupted)))
      as (_ & _ & _ & _ & Hblock).
    destruct (Hblock (convert_blazeface.main
                        (Samples.world false (Exited 0) (Faulted Interrupted))))
      as (_ & _ & Hinterrupt & _).
    apply Hinterrupt. reflexivity.
Defined.

(** Each outcome of Procedure A occurs in some environment. *)
Example blazeface_exit_0 :
  convert_blazeface.exit_code (Samples.world false (Exited 0) (Exited 0)) = 0.
Proof. reflexivity. Qed.

Example blazeface_exit_1_conversion :
  convert_blazeface.exit_code (Samples.world true (Exited 0) (Exited 1)) = 1.
Proof. reflexivity. Qed.

Example blazeface_exit_1_missing_tool :
  convert_blazeface.exit_code
    (Samples.world true (Exited 0) (Faulted (Failed "python not found"))) = 1.
Proof. reflexivity. Qed.

Example blazeface_exit_1_interrupted :
  convert_blazeface.exit_code
    (Samples.world false (Faulted Interrupted) (Exited 0)) = 1.
Proof. reflexivity. Qed.

End ExitCodes.

(* ===================================================================== *)
(** ** Sizes along a forward pass                                         *)
(* ===================================================================== *)

Section ShapeFlow.
Import Py Torch Os convert_minifasnet MiniFASNetV2.

(** A stride-2 3x3 convolution with padding 1 halves an extent, rounding
    up; three of them divide it by eight, rounding up. *)
Lemma conv_out_halving (i : Z) : conv_out i 3 2 1 = (i - 1) / 2 + 1.
Proof. unfold conv_out. f_equal. f_equal. lia. Qed.

Lemma conv_out_halving_pos (i : Z) : 1 <= i -> 1 <= conv_out i 3 2 1.
Proof.
  intros Hi. rewrite conv_out_halving.
  assert (0 <= (i - 1) / 2) by (apply Z.div_pos; lia). lia.
Qed.

Lemma conv_out_thrice (i : Z) :
  conv_out (conv_out (conv_out i 3 2 1) 3 2 1) 3 2 1 = (i - 1) / 8 + 1.
Proof.
  rewrite !conv_out_halving.
  replace ((i - 1) / 2 + 1 - 1) with ((i - 1) / 2) by lia.
  rewrite Z.div_div by lia.
  replace ((i - 1) / (2 * 2) + 1 - 1) with ((i - 1) / (2 * 2)) by lia.
  rewrite Z.div_div by lia. reflexivity.
Qed.

(** A stride-1 convolution without padding shortens an extent by the
    kernel size minus one. *)
Lemma conv_out_valid (i k : Z) : conv_out i k 1 0 = i - k + 1.
Proof. unfold conv_out. rewrite Z.div_1_r. lia. Qed.

Lemma apply_Conv2d_ok (tr : bool) (cin cout kh kw s p g n h w : Z) (b : bool) :
  kh <= h + 2 * p -> kw <= w + 2 * p ->
  apply tr (Conv2d cin cout (kh, kw) s p g b) [n; cin; h; w]
  = Return [n; cout; conv_out h kh s p; conv_out w kw s p].
Proof.
  intros Hh Hw. cbn. unfold conv2d_hw. rewrite Z.eqb_refl. cbn.
  destruct (Z.ltb_spec (h + 2 * p) kh); [lia|].
  destruct (Z.ltb_spec (w + 2 * p) kw); [lia|]. reflexivity.
Qed.

(** A convolution that returns has seen a batched or an unbatched operand
    with its own number of input channels and extents not smaller than
    the kernel. *)
Lemma apply_Conv2d_inv (tr : bool) (cin cout kh kw s p g : Z) (b : bool)
      (x y : shape) :
  apply tr (Conv2d cin cout (kh, kw) s p g b) x = Return y ->
  (exists n h w,
      x = [n; cin; h; w] /\ kh <= h + 2 * p /\ kw <= w + 2 * p
      /\ y = [n; cout; conv_out h kh s p; conv_out w kw s p])
  \/ (exists h w,
         x = [cin; h; w]
         /\ y = [cout; conv_out h kh s p; conv_out w kw s p]).
Proof.
  cbn. destruct x as [|a [|c [|h [|w [|? ?]]]]]; try discriminate;
    unfold conv2d_hw; cbn.
  - destruct (Z.eqb_spec a cin) as [->|]; cbn; [|discriminate].
    destruct (_ || _); [discriminate|]. intros [= <-]. right. eauto.
  - destruct (Z.eqb_spec c cin) as [->|]; cbn; [|discriminate].
    destruct (Z.ltb_spec (h + 2 * p) kh); cbn; [discriminate|].
    destruct (Z.ltb_spec (w + 2 * p) kw); cbn; [discriminate|].
    intros [= <-]. left. exists a, h, w. auto.
Qed.

Lemma apply_Linear_inv (tr : bool) (fin fout : Z) (x y : shape) :
  apply tr (Linear fin fout) x = Return y ->
  exists front, x = front ++ [fin] /\ y = front ++ [fout].
Proof.
  cbn. destruct (reverse x) as [|last front] eqn:Hrev; [discriminate|].
  destruct (Z.eqb_spec last fin) as [->|]; [|discriminate].
  intros [= <-]. exists (reverse front). split; [|reflexivity].
  rewrite <- (reverse_involutive x), Hrev, reverse_cons. reflexivity.
Qed.

Lemma size_0 (n : Z) (rest : shape) : size (n :: rest) 0 = Return n.
Proof.
  unfold size. cbn [length]. rewrite Nat2Z.inj_succ.
  destruct (Z.ltb_spec 0 0); [lia|].
  destruct (Z.leb_spec 0 0); [|lia].
  destruct (Z.ltb_spec 0 (Z.succ (Z.of_nat (length rest)))); [|lia].
  reflexivity.
Qed.

(** [x.view(n, -1)] returns exactly when [n] is a non-zero extent that
    divides the number of elements. *)
Lemma view_flatten (x : shape) (n : Z) :
  n <> -1 ->
  view x [n; -1]
  = if n * 1 =? 0 then
      Raise (RuntimeError "cannot reshape: unspecified dimension -1")
    else if numel x mod (n * 1) =? 0 then Return [n; numel x / (n * 1)]
    else Raise (RuntimeError "shape is invalid for input size").
Proof.
  intros Hn. unfold view.
  rewrite !filter_cons, filter_nil.
  destruct (decide (n ≠ -1)); [|contradiction].
  destruct (decide (n = -1)); [contradiction|].
  destruct (decide (-1 ≠ -1)); [contradiction|].
  destruct (decide (-1 = -1)); [|contradiction].
  cbn [length numel fold_right fmap list_fmap].
  destruct (Z.eqb_spec n (-1)); [contradiction|]. reflexivity.
Qed.

Lemma view_flatten_inv (x : shape) (n : Z) (y : shape) :
  view x [n; -1] = Return y ->
  n <> 0 /\ n <> -1 /\ y = [n; numel x / n].
Proof.
  destruct (decide (n = -1)) as [->|Hn]; [vm_compute; discriminate|].
  rewrite view_flatten by assumption. rewrite Z.mul_1_r.
  destruct (Z.eqb_spec n 0); [discriminate|].
  destruct (_ =? 0); [|discriminate]. intros [= <-]. auto.
Qed.

Lemma apply_Conv2d_inv4 (tr : bool) (cin cout kh kw s p g : Z) (b : bool)
      (n c h w : Z) (y : shape) :
  apply tr (Conv2d cin cout (kh, kw) s p g b) [n; c; h; w] = Return y ->
  c = cin /\ kh <= h + 2 * p /\ kw <= w + 2 * p
  /\ y = [n; cout; conv_out h kh s p; conv_out w kw s p].
Proof.
  intros [(? & ? & ? & [= <- <- <- <-] & ? & ? & ->)|(? & ? & [=] & _)]
         %apply_Conv2d_inv.
  auto.
Qed.

Lemma apply_BatchNorm2d_inv4 (tr : bool) (nf n c h w : Z) (y : shape) :
  apply tr (BatchNorm2d nf) [n; c; h; w] = Return y ->
  c = nf /\ tr && (n * (h * w) =? 1) = false /\ y = [n; c; h; w].
Proof.
  intros (-> & ? & ? & ? & [= <- <- <- <-] & ?)%apply_BatchNorm2d_inv. auto.
Qed.

Lemma apply_BatchNorm2d_unbatched (tr : bool) (nf c h w : Z) (y : shape) :
  apply tr (BatchNorm2d nf) [c; h; w] = Return y -> False.
Proof. discriminate. Qed.

Lemma apply_Linear_ok (tr : bool) (fin fout : Z) (front : shape) :
  apply tr (Linear fin fout) (front ++ [fin]) = Return (front ++ [fout]).
Proof.
  cbn [apply]. rewrite reverse_app, reverse_singleton. cbn [app].
  rewrite Z.eqb_refl, reverse_involutive. reflexivity.
Qed.

Ltac step :=
  first [ rewrite bind_call | rewrite bind_lift ];
  match goal with
  | |- context [match ?r with Return _ => _ | Raise _ => _ end] =>
      let H := fresh "Hstep" in destruct r eqn:H
  end;
  cbv beta.

(** Turn the equation of the step just taken into facts about sizes. *)
Ltac sizes Hbuilt :=
  match goal with
  | H : apply _ (submodule _ _) _ = Return _ |- _ =>
      rewrite Hbuilt in H; cbn [submodule __init__ _pair] in H;
      lazymatch type of H with
      | apply _ (Conv2d _ _ _ _ _ _ _) _ = _ =>
          apply apply_Conv2d_inv4 in H as (_ & ? & ? & ->)
      | apply _ (BatchNorm2d _) [_; _; _] = _ =>
          destruct (apply_BatchNorm2d_unbatched _ _ _ _ _ _ H)
      | apply _ (BatchNorm2d _) _ = _ =>
          apply apply_BatchNorm2d_inv4 in H as (_ & ? & ->)
      | apply _ (ReLU _) _ = _ => apply apply_ReLU in H as ->
      end
  | H : size (_ :: _) 0 = Return _ |- _ =>
      rewrite size_0 in H; injection H as <-
  | H : view _ [_; -1] = Return _ |- _ =>
      apply view_flatten_inv in H as (? & ? & ->)
  end.

Lemma forward_returns_inv (e kh kw : Z) (self : t) (x y : shape) :
  (forall a, submodule self a = submodule (__init__ e (kh, kw)) a) ->
  snd (run (forward self x)) = Return y ->
  exists n h w,
    x = [n; 3; h; w] /\ y = [n; 2] /\ n <> 0 /\ n <> -1
    /\ 1 <= h /\ 1 <= w
    /\ kh <= (h - 1) / 8 + 1 /\ kw <= (w - 1) / 8 + 1
    /\ e * (((h - 1) / 8 + 1 - kh + 1) * ((w - 1) / 8 + 1 - kw + 1)) = e
    /\ (training self = true ->
        n * (((h - 1) / 8 + 1 - kh + 1) * ((w - 1) / 8 + 1 - kw + 1)) <> 1).
Proof.
  intros Hbuilt. unfold run, forward.
  step; [| cbn [snd]; discriminate].
  rewrite Hbuilt in Hstep. cbn [submodule __init__ _pair] in Hstep.
  apply apply_Conv2d_inv in Hstep
    as [(n & h & w & -> & Hh & Hw & ->)|(h & w & -> & ->)];
    [| step; [sizes Hbuilt | cbn [snd]; discriminate]].
  do 32 (step; [sizes Hbuilt | cbn [snd]; discriminate]).
  step; [| cbn [snd]; discriminate].
  rewrite Hbuilt in Hstep. cbn [submodule __init__] in Hstep.
  apply apply_Linear_inv in Hstep as (front & Hfront & ->).
  rewrite ?conv_out_same, ?conv_out_pointwise, ?conv_out_thrice,
    ?conv_out_valid in *.
  cbn [snd ret]. intros [= <-].
  assert (Hmore : training self = true ->
                  n * (((h - 1) / 8 + 1 - kh + 1) * ((w - 1) / 8 + 1 - kw + 1))
                  <> 1).
  { intros Htr.
    match goal with
    | H : training self && (_ * ((_ - kh + 1) * (_ - kw + 1)) =? 1) = false
      |- _ => rewrite Htr in H; cbn [andb] in H; by apply Z.eqb_neq in H
    end. }
  repeat match goal with H : _ && _ = false |- _ => clear H end.
  cbn [numel fold_right] in Hfront.
  rewrite Z.mul_1_r, (Z.mul_comm n), Z.div_mul in Hfront by assumption.
  destruct front as [|a [|b front]]; cbn [app] in Hfront.
  - discriminate.
  - injection Hfront as <- Hfc.
    exists n, h, w. repeat split; try assumption; try lia.
  - destruct front; discriminate.
Qed.

(** One returning statement of [forward] in inference mode. *)
Ltac pass Hbuilt Htr :=
  rewrite bind_call, Hbuilt, Htr; cbn [submodule __init__]; unfold _pair;
  first [ rewrite apply_Conv2d_ok by lia
        | rewrite apply_BatchNorm2d_ok by reflexivity
        | cbn [apply] ];
  cbv beta iota;
  rewrite ?conv_out_same, ?conv_out_pointwise, ?conv_out_thrice,
    ?conv_out_valid.

Lemma forward_returns_when (e kh kw : Z) (self : t) (n h w : Z) :
  (forall a, submodule self a = submodule (__init__ e (kh, kw)) a) ->
  training self = false ->
  n <> 0 -> n <> -1 -> 1 <= h -> 1 <= w ->
  kh <= (h - 1) / 8 + 1 -> kw <= (w - 1) / 8 + 1 ->
  e * (((h - 1) / 8 + 1 - kh + 1) * ((w - 1) / 8 + 1 - kw + 1)) = e ->
  snd (run (forward self [n; 3; h; w])) = Return [n; 2].
Proof.
  intros Hbuilt Htr Hn0 Hn1 Hh Hw Hkh Hkw Hfc.
  pose proof (conv_out_halving_pos h Hh) as Hh1.
  pose proof (conv_out_halving_pos w Hw) as Hw1.
  pose proof (conv_out_halving_pos _ Hh1) as Hh2.
  pose proof (conv_out_halving_pos _ Hw1) as Hw2.
  pose proof (conv_out_halving_pos _ Hh2) as Hh3.
  pose proof (conv_out_halving_pos _ Hw2) as Hw3.
  rewrite conv_out_thrice in Hh3, Hw3.
  unfold run, forward.
  do 31 pass Hbuilt Htr.
  rewrite bind_lift, size_0.
  rewrite bind_lift, view_flatten by assumption.
  rewrite Z.mul_1_r.
  destruct (Z.eqb_spec n 0); [contradiction|].
  cbn [numel fold_right].
  rewrite Z.mul_1_r, (Z.mul_comm n), Z.mod_mul, Z.div_mul by assumption.
  cbn [Z.eqb]. rewrite Hfc.
  rewrite bind_call, Hbuilt. cbn [submodule __init__].
  rewrite (apply_Linear_ok _ e 2 [n]). reflexivity.
Qed.

Lemma built_in_either_mode (e : Z) (k : Z * Z) (inference : bool) (a : attr) :
  submodule (if inference then eval (__init__ e k) else __init__ e k) a
  = submodule (__init__ e k) a.
Proof. destruct inference; reflexivity. Qed.

(** If the product of two extents that are at least 1 leaves a non-zero
    number unchanged, both extents are 1. *)
Lemma unit_extents (e a b : Z) :
  e <> 0 -> 1 <= a -> 1 <= b -> e * (a * b) = e -> a = 1 /\ b = 1.
Proof.
  intros He Ha Hb Hprod.
  assert (a * b = 1) by (apply (Z.mul_reg_l _ _ e); lia).
  destruct (Z.eq_mul_1_nonneg a b) as [-> ->]; auto; lia.
Qed.

(** X1: whenever a forward pass of a model built by [__init__] returns, in
    training or in inference mode, the operand was a batched tensor with
    three channels and the result has one row of two logits per sample. *)
Theorem forward_output_is_batch_by_2
        (embedding_size : Z) (conv6_kernel : Z * Z) (inference : bool)
        (x y : shape) :
  let net := __init__ embedding_size conv6_kernel in
  let self := if inference then eval net else net in
  snd (run (forward self x)) = Return y ->
  exists n h w, x = [n; 3; h; w] /\ y = [n; 2] /\ n <> 0.
Proof.
  intros net self Hret. destruct conv6_kernel as [kh kw].
  destruct (forward_returns_inv embedding_size kh kw self x y)
    as (n & h & w & -> & -> & Hn & _); [|assumption|by exists n, h, w].
  apply built_in_either_mode.
Qed.

Lemma forward_output_is_batch_by_2_witness :
  exists n h w, [4; 3; 8; 8] = [n; 3; h; w] /\ [4; 2] = [n; 2] /\ n <> 0.
Proof.
  apply (forward_output_is_batch_by_2 default_embedding_size (1, 1) true
           [4; 3; 8; 8] [4; 2]).
  vm_compute. reflexivity.
Defined.

(** X2: in inference mode, with a positive embedding size and a positive
    batch size, the pass over an h x w image returns exactly when the
    image is not empty and the kernel of [conv6_dw] is the whole map left
    by the three stride-2 convolutions, (h-1)/8+1 by (w-1)/8+1. *)
Theorem forward_returns_iff_kernel_spans
        (embedding_size kh kw n h w : Z) :
  0 < embedding_size -> 0 < n ->
  snd (run (forward (eval (__init__ embedding_size (kh, kw))) [n; 3; h; w]))
  = Return [n; 2]
  <-> 1 <= h /\ 1 <= w /\ kh = (h - 1) / 8 + 1 /\ kw = (w - 1) / 8 + 1.
Proof.
  intros He Hn. split.
  - intros Hret.
    destruct (forward_returns_inv embedding_size kh kw _ _ _
                (built_in_either_mode embedding_size (kh, kw) true) Hret)
      as (n' & h' & w' & [= <- <- <-] & _ & _ & _ & Hh & Hw & Hkh & Hkw
          & Hfc & _).
    apply unit_extents in Hfc as [Hoh How]; lia.
  - intros (Hh & Hw & -> & ->).
    apply (forward_returns_when embedding_size
             ((h - 1) / 8 + 1) ((w - 1) / 8 + 1));
      [apply (built_in_either_mode _ _ true) | reflexivity | lia ..].
Qed.

Lemma forward_returns_iff_kernel_spans_witness :
  snd (run (forward (eval (__init__ 128 (10, 10))) [2; 3; 80; 80]))
  = Return [2; 2].
Proof.
  apply (forward_returns_iff_kernel_spans 128 10 10 2 80 80); [lia|lia|].
  vm_compute. repeat split; discriminate.
Defined.

(** X3: a model fresh from [__init__], still in training mode, never
    completes a pass on a single sample (embedding size non-zero): the map
    must be 1x1 for [fc], and a 1x1 map of one sample is what
    [BatchNorm2d] refuses when training. *)
Theorem forward_training_single_sample_raises
        (embedding_size : Z) (conv6_kernel : Z * Z) (h w : Z) (y : shape) :
  embedding_size <> 0 ->
  snd (run (forward (__init__ embedding_size conv6_kernel) [1; 3; h; w]))
  <> Return y.
Proof.
  intros He Hret. destruct conv6_kernel as [kh kw].
  destruct (forward_returns_inv embedding_size kh kw _ _ _
              (built_in_either_mode embedding_size (kh, kw) false) Hret)
    as (n' & h' & w' & [= <- <- <-] & _ & _ & _ & Hh & Hw & Hkh & Hkw
        & Hfc & Htr).
  apply unit_extents in Hfc as [Hoh How]; try lia.
  apply Htr; [reflexivity|]. rewrite Hoh, How. reflexivity.
Qed.

Lemma forward_training_single_sample_raises_witness :
  snd (run (forward (__init__ 128 (10, 10)) [1; 3; 80; 80])) <> Return [1; 2].
Proof.
  apply (forward_training_single_sample_raises 128 (10, 10) 80 80 [1; 2]).
  discriminate.
Defined.

(** X4: in inference mode the outcome does not depend on the batch size:
    the pass returns on n samples exactly when it returns on m samples of
    the same height and width. *)
Theorem forward_batch_agnostic
        (embedding_size : Z) (conv6_kernel : Z * Z) (n m h w : Z) :
  0 < n -> 0 < m ->
  let self := eval (__init__ embedding_size conv6_kernel) in
  snd (run (forward self [n; 3; h; w])) = Return [n; 2]
  <-> snd (run (forward self [m; 3; h; w])) = Return [m; 2].
Proof.
  intros Hn Hm self. destruct conv6_kernel as [kh kw].
  assert (Hany : forall a b, 0 < a -> 0 < b ->
            snd (run (forward self [a; 3; h; w])) = Return [a; 2] ->
            snd (run (forward self [b; 3; h; w])) = Return [b; 2]).
  { intros a b Ha Hb Hret.
    destruct (forward_returns_inv embedding_size kh kw _ _ _
                (built_in_either_mode embedding_size (kh, kw) true) Hret)
      as (n' & h' & w' & [= <- <- <-] & _ & _ & _ & Hh & Hw & Hkh & Hkw
          & Hfc & _).
    apply (forward_returns_when embedding_size kh kw);
      [apply (built_in_either_mode _ _ true) | reflexivity
      | lia | lia | assumption ..]. }
  split; apply Hany; assumption.
Qed.

Lemma forward_batch_agnostic_witness :
  snd (run (forward (eval (__init__ 128 (1, 1))) [1; 3; 8; 8])) = Return [1; 2]
  <-> snd (run (forward (eval (__init__ 128 (1, 1))) [16; 3; 8; 8]))
      = Return [16; 2].
Proof.
  apply (forward_batch_agnostic 128 (1, 1) 1 16 8 8); lia.
Defined.

(** The sub-modules invoked by a pass that returns, in order. *)
Lemma completed_pass_callees (self : t) (x y : shape) :
  snd (run (forward self x)) = Return y ->
  callee <$> fst (run (forward self x))
  = [conv1; bn1; relu; conv2_dw; bn2_dw; relu; conv2_sep; bn2_sep; relu;
     conv3_dw; bn3_dw; relu; conv3_sep; bn3_sep; relu;
     conv4_dw; bn4_dw; relu; conv4_sep; bn5_sep; relu;
     conv5_dw; bn5_dw; relu; conv5_sep; bn5_sep; relu;
     conv6_dw; bn6_dw; relu; conv6_flatten; fc].
Proof.
  match goal with
  | |- _ -> _ = ?order =>
      set (P := fun r : list invocation * result shape =>
                  snd r = Return y -> callee <$> fst r = order)
  end.
  change (P (run (forward self x))).
  unfold run, forward.
  repeat (step; [| subst P; cbn [snd]; discriminate]).
  subst P. intros _. reflexivity.
Qed.

(** Any pass invokes an initial segment of that sequence. *)
Lemma any_pass_callees (self : t) (x : shape) :
  callee <$> fst (run (forward self x))
  `prefix_of`
  [conv1; bn1; relu; conv2_dw; bn2_dw; relu; conv2_sep; bn2_sep; relu;
   conv3_dw; bn3_dw; relu; conv3_sep; bn3_sep; relu;
   conv4_dw; bn4_dw; relu; conv4_sep; bn5_sep; relu;
   conv5_dw; bn5_dw; relu; conv5_sep; bn5_sep; relu;
   conv6_dw; bn6_dw; relu; conv6_flatten; fc].
Proof.
  match goal with
  | |- _ `prefix_of` ?order =>
      set (P := fun log : list invocation => callee <$> log `prefix_of` order)
  end.
  change (P (fst (run (forward self x)))).
  unfold run, forward.
  repeat (step; [| subst P; eexists; reflexivity]).
  subst P; eexists; reflexivity.
Qed.

(** X5: the order of the sub-module calls is fixed: whatever the model
    object and the operand, the calls of a pass are an initial segment of
    the calls of any pass that returns; only the point where a pass stops
    depends on the data. *)
Theorem forward_call_order (self self' : t) (x x' y' : shape) :
  snd (run (forward self' x')) = Return y' ->
  callee <$> fst (run (forward self x))
  `prefix_of` callee <$> fst (run (forward self' x')).
Proof.
  intros Hret. rewrite (completed_pass_callees self' x' y' Hret).
  apply any_pass_callees.
Qed.

Lemma forward_call_order_witness :
  callee <$> fst (run (forward exported_model [1; 3; 80; 80]))
  `prefix_of` callee <$> fst (run (forward exported_model [1; 3; 8; 8])).
Proof.
  apply (forward_call_order _ _ _ _ [1; 2]). vm_compute. reflexivity.
Defined.

(** Each invocation of an explicit call log, one after the other. *)
Ltac each_call H Hsub :=
  repeat (apply elem_of_cons in H as [H|H];
          [ injection H as -> ->;
            cbn [submodule __init__ _pair] in Hsub;
            first [ discriminate Hsub
                  | injection Hsub as <-;
                    by apply apply_BatchNorm2d_ok ]
          | ]);
  apply elem_of_nil in H; contradiction.

Lemma batchnorm_operands (e kh kw : Z) (self : t) (n c h w nf : Z)
      (a : attr) (xi : shape) :
  (forall a, submodule self a = submodule (__init__ e (kh, kw)) a) ->
  Invoke a xi ∈ fst (run (forward self [n; c; h; w])) ->
  submodule (__init__ e (kh, kw)) a = BatchNorm2d nf ->
  apply false (BatchNorm2d nf) xi = Return xi.
Proof.
  intros Hbuilt.
  set (P := fun log : list invocation =>
              Invoke a xi ∈ log ->
              submodule (__init__ e (kh, kw)) a = BatchNorm2d nf ->
              apply false (BatchNorm2d nf) xi = Return xi).
  change (P (fst (run (forward self [n; c; h; w])))).
  unfold run, forward.
  repeat (step;
          [ first [ sizes Hbuilt | idtac ]
          | subst P; cbn [fst app]; intros Hin Hsub; each_call Hin Hsub ]).
  subst P; cbn [fst app ret]; intros Hin Hsub; each_call Hin Hsub.
Qed.

(** X6: in inference mode, on a batched operand, no batch normalisation of
    a pass ever raises: each one receives a 4-D tensor with exactly its
    own number of channels.  A pass can only fail in a convolution, in
    the flattening or in [fc]. *)
Theorem batchnorm_accepts_every_operand
        (embedding_size : Z) (conv6_kernel : Z * Z) (n c h w nf : Z)
        (a : attr) (xi : shape) :
  let self := eval (__init__ embedding_size conv6_kernel) in
  Invoke a xi ∈ fst (run (forward self [n; c; h; w])) ->
  submodule self a = BatchNorm2d nf ->
  apply (training self) (submodule self a) xi = Return xi.
Proof.
  intros self Hin Hsub. rewrite Hsub. destruct conv6_kernel as [kh kw].
  apply (batchnorm_operands embedding_size kh kw self n c h w nf a xi);
    [apply (built_in_either_mode _ _ true) | assumption | assumption].
Qed.

Lemma batchnorm_accepts_every_operand_witness :
  apply false (BatchNorm2d 128) [1; 128; 10; 10] = Return [1; 128; 10; 10].
Proof.
  apply (batchnorm_accepts_every_operand 128 (1, 1) 1 3 80 80 128
           bn6_dw [1; 128; 10; 10]).
  - vm_compute. repeat constructor.
  - reflexivity.
Defined.
End ShapeFlow.

(* ===================================================================== *)
(** ** Further behaviour of the two scripts                               *)
(* ===================================================================== *)

Section Scripts.
Import Py Torch Os.

(** Case analysis on the fault, if any, that hits the export. *)
Ltac export_cases env :=
  unfold convert_minifasnet.exit_code, convert_minifasnet.__main__,
    convert_minifasnet.main, torch_onnx_export;
  destruct (tracing env) as [[|?]|];
  vm_compute.

(** X7: Procedure B never succeeds.  Whatever the environment, the script
    exits with status 1, [main] does not return 0, the success banner is
    never printed and no file is written.  When nothing hits the export
    from outside, [main] returns 1 and the last four lines printed are the
    export-failure report of the shape mismatch raised while tracing; an
    operating-system error during the export is reported the same way;
    an interrupt during the export leaves [main] and the last line is
    "Cancelled by user". *)
Theorem minifasnet_main_always_fails (env : Env) :
  let log := fst (run (convert_minifasnet.__main__ env)) in
  let report (e : exn) : list string :=
    [""; str_mul "=" 60;
     ("✗ ERROR: Export failed - " ++ str env e)%string;
     str_mul "=" 60] in
  convert_minifasnet.exit_code env = 1
  /\ snd (run (convert_minifasnet.main env)) <> Return 0
  /\ ("✓ SUCCESS: MiniFASNetV2 ONNX model created!" ∉ printed log)
  /\ written log = []
  /\ (tracing env = None ->
      snd (run (convert_minifasnet.main env)) = Return 1
      /\ last_printed 4 log
         = report (RuntimeError "mat1 and mat2 shapes cannot be multiplied"))
  /\ (forall msg, tracing env = Some (Failed msg) ->
      snd (run (convert_minifasnet.main env)) = Return 1
      /\ last_printed 4 log = report (OSError msg))
  /\ (tracing env = Some Interrupted ->
      snd (run (convert_minifasnet.main env)) = Raise KeyboardInterrupt
      /\ last_printed 1 log = [(NL ++ NL ++ "Cancelled by user")%string]).
Proof.
  export_cases env; repeat split; intros; simplify_eq; try reflexivity;
    match goal with
    | H : list_elem_of _ _ |- _ =>
        apply list_elem_of_In in H; cbn in H; intuition discriminate
    end.
Qed.

Lemma minifasnet_main_always_fails_witness :
  snd (run (convert_minifasnet.main
              (Samples.export_world (Some Interrupted) (fun _ => 0))))
  = Raise KeyboardInterrupt.
Proof.
  destruct (minifasnet_main_always_fails
              (Samples.export_world (Some Interrupted) (fun _ => 0)))
    as (_ & _ & _ & _ & _ & _ & Hinterrupt).
  apply Hinterrupt. reflexivity.
Defined.

Import convert_blazeface.

Ltac answers env :=
  unfold exit_code, __main__;
  rewrite (main_answers env);
  generalize (str env); intros render;
  destruct (path_exists env tflite_path);
  destruct (spawn env download_argv) as [[|?|?]|[|?]];
  destruct (spawn env convert_argv) as [[|?|?]|[|?]];
  vm_compute.

(** X8: Procedure A succeeds exactly when the conversion was reached (the
    input file existed or the download exited with code 0) and the
    converter exited with code 0; the script then exits with status 0 and
    the last five lines printed are the success banner with the output
    location. *)
Theorem blazeface_success_iff (env : Env) :
  let reached :=
    path_exists env tflite_path = true
    \/ spawn env download_argv = Exited 0 in
  let converted := spawn env convert_argv = Exited 0 in
  (snd (run (main env)) = Return 0 <-> reached /\ converted)
  /\ (exit_code env = 0 <-> reached /\ converted)
  /\ (snd (run (main env)) = Return 0 ->
      last_printed 5 (fst (run (main env)))
      = [""; str_mul "=" 60; "✓ SUCCESS: BlazeFace ONNX model created!";
         "  Location: ../public/models/onnx/blazeface.onnx"; str_mul "=" 60]).
Proof.
  answers env; repeat split; intros; try discriminate; auto;
    repeat match goal with
           | H : _ /\ _ |- _ => destruct H
           | H : _ \/ _ |- _ => destruct H
           end; try discriminate.
Qed.

Lemma blazeface_success_iff_witness :
  exit_code (Samples.world false (Exited 0) (Exited 0)) = 0.
Proof.
  apply (blazeface_success_iff (Samples.world false (Exited 0) (Exited 0))).
  split; [right|]; reflexivity.
Defined.

(** Case analysis as in [answers], keeping [str env] as it is. *)
Ltac outcomes env :=
  unfold exit_code, __main__;
  rewrite (main_answers env);
  destruct (path_exists env tflite_path);
  destruct (spawn env download_argv) as [[|?|?]|[|?]];
  destruct (spawn env convert_argv) as [[|?|?]|[|?]];
  vm_compute.

Ltac not_printed H :=
  apply list_elem_of_In in H; cbn in H; intuition discriminate.

(** X9: the [except] clause of Procedure A's [main] only handles the exit
    status of the converter.  When the conversion step is interrupted, or
    the converter cannot be started at all, the exception leaves [main],
    the "Conversion failed" diagnostic is not printed, the last line of the
    script is the report of the [__main__] block, and the status is 1. *)
Theorem conversion_fault_escapes_main (env : Env) (f : fault) :
  convert_argv ∈ spawned (fst (run (main env))) ->
  spawn env convert_argv = Faulted f ->
  snd (run (main env)) = Raise (exn_of_fault f)
  /\ exit_code env = 1
  /\ ("✗ ERROR: Conversion failed" ∉ printed (fst (run (__main__ env))))
  /\ last_printed 1 (fst (run (__main__ env))) = [(match f with
         | Interrupted => NL ++ NL ++ "Cancelled by user"
         | Failed msg => NL ++ NL ++ "✗ ERROR: " ++ str env (OSError msg)
         end)%string].
Proof.
  outcomes env; intros Hin [= <-];
    try (exfalso; apply list_elem_of_In in Hin; cbn in Hin;
         intuition discriminate);
    repeat split; intros Hp; not_printed Hp.
Qed.

Lemma conversion_fault_escapes_main_witness :
  snd (run (main (Samples.world true (Exited 0)
                    (Faulted (Failed "No such file or directory: 'python'")))))
  = Raise (OSError "No such file or directory: 'python'").
Proof.
  refine (proj1 (conversion_fault_escapes_main
                   (Samples.world true (Exited 0)
                      (Faulted (Failed "No such file or directory: 'python'")))
                   (Failed "No such file or directory: 'python'") _ _)).
  - vm_compute. repeat constructor.
  - reflexivity.
Defined.

(** X10: when the input file is absent and the download step is
    interrupted, or [curl] cannot be started, the exception leaves
    [main], the download is the only process started (no conversion is
    attempted), the last line of the script is the report of the
    [__main__] block, and the status is 1. *)
Theorem download_fault_aborts (env : Env) (f : fault) :
  path_exists env tflite_path = false ->
  spawn env download_argv = Faulted f ->
  snd (run (main env)) = Raise (exn_of_fault f)
  /\ spawned (fst (run (__main__ env))) = [download_argv]
  /\ exit_code env = 1
  /\ last_printed 1 (fst (run (__main__ env))) = [(match f with
         | Interrupted => NL ++ NL ++ "Cancelled by user"
         | Failed msg => NL ++ NL ++ "✗ ERROR: " ++ str env (OSError msg)
         end)%string].
Proof.
  outcomes env; intros [=] [= <-]; repeat split.
Qed.

Lemma download_fault_aborts_witness :
  exit_code (Samples.world false (Faulted Interrupted) (Exited 0)) = 1.
Proof.
  refine (proj1 (proj2 (proj2
    (download_fault_aborts
       (Samples.world false (Faulted Interrupted) (Exited 0))
       Interrupted _ _)))); reflexivity.
Defined.

(** X11: a run of Procedure A asks exactly once whether the input file
    exists.  After a download that exited with code 0 the conversion is
    started without looking again: the exit status of [curl] alone
    decides, also when the file is still missing. *)
Theorem input_path_probed_once (env : Env) :
  let log := fst (run (main env)) in
  probed log = [tflite_path]
  /\ (path_exists env tflite_path = false ->
      spawn env download_argv = Exited 0 ->
      spawned log = [download_argv; convert_argv]).
Proof.
  outcomes env; split; try reflexivity; intros; try discriminate; reflexivity.
Qed.

Lemma input_path_probed_once_witness :
  spawned (fst (run (main (Samples.world false (Exited 0) (Exited 0)))))
  = [download_argv; convert_argv].
Proof.
  apply (input_path_probed_once (Samples.world false (Exited 0) (Exited 0)));
    reflexivity.
Defined.

(** X12: the [__main__] block of either script never returns normally and
    never lets [KeyboardInterrupt] or an [Exception] through: whatever
    [main] does, the run ends with [SystemExit].  It prints nothing after a
    [main] that returned, one "Cancelled by user" line after a
    [KeyboardInterrupt] and one error line after an [Exception], in each
    case after everything [main] has logged. *)
Theorem name_main_block_always_exits (env : Env) (body : M event Z) :
  let r := run body in
  let r' := run (name_main_block env body) in
  (exists code, snd r' = Raise (SystemExit code))
  /\ (forall status, snd r = Return status ->
                     fst r' = fst r /\ snd r' = Raise (SystemExit status))
  /\ (snd r = Raise KeyboardInterrupt ->
      fst r' = fst r ++ [Print (NL ++ NL ++ "Cancelled by user")%string])
  /\ (forall e, isinstance_Exception e = true -> snd r = Raise e ->
                fst r' = fst r
                         ++ [Print (NL ++ NL ++ "✗ ERROR: " ++ str env e)
                                   %string]).
Proof.
  unfold name_main_block, run, try_except, bind, sys_exit, raise, print, emit.
  destruct (body []) as [log [status|e]]; [|destruct e];
    cbv beta iota delta [isinstance_Exception fst snd];
    (split; [eauto|]); repeat split; intros; simplify_eq; auto;
    discriminate.
Qed.

Lemma name_main_block_always_exits_witness :
  let env := Samples.world false (Faulted Interrupted) (Exited 0) in
  fst (run (name_main_block env (main env)))
  = fst (run (main env)) ++ [Print (NL ++ NL ++ "Cancelled by user")%string].
Proof.
  intros env.
  destruct (name_main_block_always_exits env (main env))
    as (_ & _ & Hinterrupt & _).
  apply Hinterrupt. reflexivity.
Defined.
End Scripts.

(* ===================================================================== *)
(** ** Random parameters and the exported file                            *)
(* ===================================================================== *)

Section Weights.
Import Py Torch Os convert_minifasnet MiniFASNetV2.

(** Laid end to end, the parameter values of the sub-modules [order] are
    the generator's output from [offset] on, as many values as the
    sub-modules draw together. *)
Lemma drawn_concat (g : Z -> Z) (self : t) (order : list attr) (offset : Z) :
  Forall (fun a => 0 <= random_numel (submodule self a)) order ->
  concat (drawn g self offset order)
  = g <$> seqZ offset
            (foldr (fun a n => random_numel (submodule self a) + n) 0 order)
    /\ 0 <= foldr (fun a n => random_numel (submodule self a) + n) 0 order.
Proof.
  intros Hpos. revert offset.
  induction Hpos as [|a order Ha _ IH]; intros offset.
  - split; [reflexivity|cbn; lia].
  - cbn [drawn concat foldr].
    destruct (IH (offset + random_numel (submodule self a))) as [-> Hrest].
    split; [|lia]. rewrite seqZ_app, fmap_app by assumption. reflexivity.
Qed.

(** The parameters depend on the generator: two generators that differ at
    a position the construction draws give different parameter values. *)
Lemma parameters_depend_on_generator (g1 g2 : Z -> Z) (self : t) (k : Z) :
  Forall (fun a => 0 <= random_numel (submodule self a)) construction_order ->
  0 <= k < total_drawn self ->
  g1 k <> g2 k ->
  parameters g1 self <> parameters g2 self.
Proof.
  intros Hpos Hk Hdiff Heq. apply Hdiff.
  apply (f_equal (@concat Z)) in Heq. unfold parameters in Heq.
  rewrite !(proj1 (drawn_concat _ self construction_order 0 Hpos)) in Heq.
  apply (f_equal (fun l => l !! Z.to_nat k)) in Heq.
  rewrite !list_lookup_fmap, !lookup_seqZ_lt in Heq
    by (unfold total_drawn in Hk; lia).
  cbn in Heq. injection Heq. rewrite Z2Nat.id by lia. auto.
Qed.

(** The model of [main] draws 50946 values, none of them for a batch
    normalisation. *)
Lemma exported_model_draws :
  Forall (fun a => 0 <= random_numel (submodule exported_model a))
         construction_order
  /\ total_drawn exported_model = 50946.
Proof.
  split; [|reflexivity].
  repeat (constructor; [by vm_compute|]). constructor.
Qed.

(** With a kernel that spans the map, and nothing hitting the export, the
    parameter values do reach the file. *)
Example export_with_spanning_kernel (g : Z -> Z) :
  let model := eval (__init__ default_embedding_size (10, 10)) in
  written
    (fst (run (torch_onnx_export (Samples.export_world None g)
                 (forward model) (parameters g model)
                 (export_request model (randn [1; 3; 80; 80])))))
  = [("../public/models/onnx/minifasnet_v2.onnx", parameters g model)].
Proof.
  intros model.
  refine (export_writes_weights (Samples.export_world None g)
            (forward model) (parameters g model)
            (export_request model (randn [1; 3; 80; 80])) [1; 2] _ _ _);
    [reflexivity | vm_compute; reflexivity | reflexivity].
Qed.

(** C10 (the code departs from the claim): two runs whose generators give
    the model different parameter values do not serialize different
    weight values: neither run writes a file, because the export raises
    while it traces the model. *)
Theorem no_run_serializes_weights (env1 env2 : Env) :
  parameters (generator env1) exported_model
  <> parameters (generator env2) exported_model ->
  written (fst (run (__main__ env1))) = []
  /\ written (fst (run (__main__ env2))) = [].
Proof. intros _. split; apply minifasnet_writes_nothing. Qed.

Lemma no_run_serializes_weights_witness :
  written (fst (run (__main__ (Samples.export_world None (fun _ => 0))))) = []
  /\ written (fst (run (__main__ (Samples.export_world None (fun _ => 1)))))
     = [].
Proof.
  apply (no_run_serializes_weights
           (Samples.export_world None (fun _ => 0))
           (Samples.export_world None (fun _ => 1))).
  intros Heq.
  apply (f_equal (fun l => l !! 0%nat ≫= (fun w => w !! 0%nat))) in Heq.
  vm_compute in Heq. discriminate.
Defined.

End Weights.
